(** * cmd/argo/commands/root.go

    The root of the [argo] command tree: [NewCommand] assembles the tree and
    its persistent flags and installs a pre-run hook; the hook configures
    logging and calls [printVersionMismatchWarning], which compares the
    version of the CLI with the version of the Argo Server when
    [ARGO_SERVER] is set.

    The code talks to its surroundings (process environment, API client,
    info service, logrus, cobra).  The embedding keeps each such call as an
    entry of a trace, in program order, so that "no request was issued" and
    "one warning was logged" are statements about the trace. *)

From Stdlib Require Import ZArith.
From stdpp Require Import gmap strings list.

Local Open Scope Z_scope.
#[local] Set Warnings "-register-all".

(** ** Go values *)

(** A non-nil [error]; [%v] prints what its [Error()] method returns. *)
Record error := { Error : string }.

(** The result of a Go call of type [(T, error)] that the caller reads by
    the usual discipline: the value is used only when the error is nil. *)
Inductive result (T : Type) :=
| Ok (v : T)
| Err (err : error).
Arguments Ok {T} v.
Arguments Err {T} err.

(** [infopkg.GetVersionRequest{}] has no fields. *)
Inductive GetVersionRequest := mkGetVersionRequest.

(** The value a flag is declared with: its type and its default. *)
Inductive FlagValue :=
| stringValue (def : string)
| intValue (def : Z)
| boolValue (def : bool).

(** A flag of a [pflag.FlagSet]; [Shorthand] is empty when the flag has no
    one-letter form. *)
Record Flag := {
  Name : string;
  Shorthand : string;
  DefValue : FlagValue;
  Usage : string
}.

(** The three variables of [NewCommand] that the persistent flags write and
    the pre-run hook reads. *)
Record Flags := {
  logLevel : string;
  glogLevel : Z;
  verbose : bool
}.

Section Embedding.

(** [context.Context], and the fields of the version structure that this
    file never reads. *)
Variables context_Context OtherFields : Type.

(** Modelled from the spec: the version structure returned by
    [argo.GetVersion()] and by the info service is declared outside this
    file; the spec gives it as [versionInfo{GitTag: string}].  Every other
    field is kept in [others]. *)
Record Version := {
  GitTag : string;
  others : OtherFields
}.

(** [infopkg.InfoServiceClient], by the one method called here. *)
Record InfoServiceClient := {
  GetVersion : context_Context -> GetVersionRequest -> result Version
}.

(** [apiclient.Client], by the one method called here. *)
Record Client := {
  NewInfoServiceClient : result InfoServiceClient
}.

(** [cobra.Command], by the fields this file sets or reads.  The [Long]
    help text is a literal that nothing here inspects and is left out;
    the two closures, [Run] and [PersistentPreRun], are the definitions
    [Run] and [PersistentPreRun] below. *)
Inductive Command := mkCommand {
  Use : string;
  Short : string;
  commands : list Command;
  PersistentFlags : list Flag;
  Context : context_Context
}.

(** What the code does to the outside, one entry per call. *)
Inductive event :=
| EvNewAPIClient (ctx : context_Context)
| EvNewInfoServiceClient
| EvGetVersion (ctx : context_Context) (req : GetVersionRequest)
| EvWarnf (msg : string)
| EvDebug (key : string) (value : Version) (msg : string)
| EvSetLogLevel (level : string)
| EvSetGLogLevel (level : Z)
| EvHelp (cmd : Command) (args : list string).

(** A computation yields the calls it made, in order, and its value. *)
Definition M (A : Type) : Type := list event * A.

Definition ret {A} (a : A) : M A := ([], a).

Definition bind {A B} (m : M A) (k : A -> M B) : M B :=
  let (t1, a) := m in
  let (t2, b) := k a in
  (t1 ++ t2, b).

Definition emit (e : event) : M unit := ([e], tt).

Definition trace {A} (m : M A) : list event := fst m.

Definition value {A} (m : M A) : A := snd m.

Local Notation "x <- m ;; k" := (bind m (fun x => k))
  (at level 100, m at next level, right associativity).
Local Notation "m ;;; k" := (bind m (fun _ => k))
  (at level 100, right associativity).

(** Code of this repository that [root.go] calls and that lives in other
    files and packages. *)
Record Collaborators := {
  (* argo.GetVersion() *)
  argo_GetVersion : Version;
  (* client.NewAPIClient(ctx) *)
  client_NewAPIClient : context_Context -> context_Context * Client;
  client_AddKubectlFlagsToCmd : Command -> Command;
  client_AddAPIClientFlagsToCmd : Command -> Command;
  NewCompletionCommand : Command;
  NewDeleteCommand : Command;
  NewGetCommand : Command;
  NewLintCommand : Command;
  NewListCommand : Command;
  NewLogsCommand : Command;
  NewResubmitCommand : Command;
  NewResumeCommand : Command;
  NewRetryCommand : Command;
  NewServerCommand : Command;
  NewSubmitCommand : Command;
  NewSuspendCommand : Command;
  auth_NewAuthCommand : Command;
  NewWaitCommand : Command;
  NewWatchCommand : Command;
  NewCpCommand : Command;
  NewStopCommand : Command;
  NewNodeCommand : Command;
  NewTerminateCommand : Command;
  archive_NewArchiveCommand : Command;
  NewVersionCommand : Command;
  template_NewTemplateCommand : Command;
  cron_NewCronWorkflowCommand : Command;
  clustertemplate_NewClusterTemplateCommand : Command;
  executorplugin_NewRootCommand : Command
}.

Variable ext : Collaborators.

(** The process environment, as [os.LookupEnv] reads it. *)
Variable environ : gmap string string.

(** ** Calls *)

Definition os_LookupEnv (key : string) : option string := environ !! key.

Definition NewAPIClient (ctx : context_Context) : M (context_Context * Client) :=
  emit (EvNewAPIClient ctx) ;;; ret (client_NewAPIClient ext ctx).

Definition call_NewInfoServiceClient (apiClient : Client) : M (result InfoServiceClient) :=
  emit EvNewInfoServiceClient ;;; ret (NewInfoServiceClient apiClient).

Definition call_GetVersion (serviceClient : InfoServiceClient)
    (ctx : context_Context) (req : GetVersionRequest) : M (result Version) :=
  emit (EvGetVersion ctx req) ;;; ret (GetVersion serviceClient ctx req).

Definition log_Warnf (msg : string) : M unit := emit (EvWarnf msg).

Definition log_WithField_Debug (key : string) (v : Version) (msg : string) : M unit :=
  emit (EvDebug key v msg).

Definition cli_SetLogLevel (level : string) : M unit := emit (EvSetLogLevel level).

Definition cmdutil_SetGLogLevel (level : Z) : M unit := emit (EvSetGLogLevel level).

Definition HelpFunc (cmd : Command) (args : list string) : M unit :=
  emit (EvHelp cmd args).

(** ** root.go *)

Definition CLIName : string := "argo".

(** printVersionMismatchWarning logs a warning if the CLI version does not
    match the server version. *)
Definition printVersionMismatchWarning (command : Command) : M unit :=
  match os_LookupEnv "ARGO_SERVER" with
  | None => ret tt
  | Some _ =>
    p <- NewAPIClient (Context command) ;;
    let (ctx, apiClient) := p in
    r <- call_NewInfoServiceClient apiClient ;;
    match r with
    | Err err => log_Warnf ("Failed create service client: " +:+ Error err)
    | Ok serviceClient =>
      r <- call_GetVersion serviceClient ctx mkGetVersionRequest ;;
      match r with
      | Err err => log_Warnf ("Failed to connect to Argo Server: " +:+ Error err)
      | Ok serverVersion =>
        if negb (String.eqb (GitTag serverVersion) (GitTag (argo_GetVersion ext)))
        then log_Warnf ("CLI version (" +:+ GitTag (argo_GetVersion ext)
                        +:+ ") does not match server version ("
                        +:+ GitTag serverVersion
                        +:+ "). This can lead to unexpected behavior.")
        else ret tt
      end
    end
  end.

(** The [Run] closure of the root command. *)
Definition Run (cmd : Command) (args : list string) : M unit :=
  HelpFunc cmd args.

(** The [PersistentPreRun] closure of the root command.  It closes over
    [command] and over the three flag variables, which it may overwrite;
    the variables are passed in and handed back. *)
Definition PersistentPreRun (command : Command) (vars : Flags)
    (cmd : Command) (args : list string) : M Flags :=
  let vars :=
    if verbose vars
    then {| logLevel := "debug"; glogLevel := 6; verbose := verbose vars |}
    else vars in
  cli_SetLogLevel (logLevel vars) ;;;
  cmdutil_SetGLogLevel (glogLevel vars) ;;;
  log_WithField_Debug "version" (argo_GetVersion ext) "CLI version" ;;;
  printVersionMismatchWarning command ;;;
  ret vars.

(** [command.AddCommand(c)] *)
Definition AddCommand (c : Command) (command : Command) : Command :=
  {| Use := Use command; Short := Short command;
     commands := commands command ++ [c];
     PersistentFlags := PersistentFlags command;
     Context := Context command |}.

(** [command.PersistentFlags().StringVar(&p, name, value, usage)] and its
    siblings add one flag to the persistent flag set. *)
Definition AddPersistentFlag (f : Flag) (command : Command) : Command :=
  {| Use := Use command; Short := Short command;
     commands := commands command;
     PersistentFlags := PersistentFlags command ++ [f];
     Context := Context command |}.

Definition StringVar (name value usage : string) : Command -> Command :=
  AddPersistentFlag
    {| Name := name; Shorthand := ""; DefValue := stringValue value; Usage := usage |}.

Definition IntVar (name : string) (value : Z) (usage : string) : Command -> Command :=
  AddPersistentFlag
    {| Name := name; Shorthand := ""; DefValue := intValue value; Usage := usage |}.

Definition BoolVarP (name shorthand : string) (value : bool) (usage : string)
    : Command -> Command :=
  AddPersistentFlag
    {| Name := name; Shorthand := shorthand; DefValue := boolValue value; Usage := usage |}.

(** The command literal at the head of [NewCommand]; [ctx] is the context
    cobra attaches to the command when it is executed. *)
Definition rootLiteral (ctx : context_Context) : Command :=
  {| Use := CLIName;
     Short := "argo is the command line interface to Argo";
     commands := [];
     PersistentFlags := [];
     Context := ctx |}.

(** The commands registered by [NewCommand], in the order of the source. *)
Definition registered : list Command :=
  [ NewCompletionCommand ext; NewDeleteCommand ext; NewGetCommand ext;
    NewLintCommand ext; NewListCommand ext; NewLogsCommand ext;
    NewResubmitCommand ext; NewResumeCommand ext; NewRetryCommand ext;
    NewServerCommand ext; NewSubmitCommand ext; NewSuspendCommand ext;
    auth_NewAuthCommand ext; NewWaitCommand ext; NewWatchCommand ext;
    NewCpCommand ext; NewStopCommand ext; NewNodeCommand ext;
    NewTerminateCommand ext; archive_NewArchiveCommand ext;
    NewVersionCommand ext; template_NewTemplateCommand ext;
    cron_NewCronWorkflowCommand ext;
    clustertemplate_NewClusterTemplateCommand ext;
    executorplugin_NewRootCommand ext ].

(** The state of [command] after the two helpers of package [client] have
    run, before [NewCommand] declares flags of its own. *)
Definition commandWithClientFlags (ctx : context_Context) : Command :=
  client_AddAPIClientFlagsToCmd ext
    (client_AddKubectlFlagsToCmd ext
      (fold_left (fun command c => AddCommand c command) registered (rootLiteral ctx))).

(** NewCommand returns a new instance of an argo command.  The Go function
    takes no argument; [ctx] stands for what [command.Context()] answers
    once cobra runs the command. *)
Definition NewCommand (ctx : context_Context) : Command :=
  BoolVarP "verbose" "v" false "Enabled verbose logging, i.e. --loglevel debug"
    (IntVar "gloglevel" 0 "Set the glog logging level"
      (StringVar "loglevel" "info" "Set the logging level. One of: debug|info|warn|error"
        (commandWithClientFlags ctx))).

(** The values of the three flag variables when no flag is given. *)
Definition defaultFlags : Flags :=
  {| logLevel := "info"; glogLevel := 0; verbose := false |}.

(** ** Observations on a trace *)

(** The messages passed to [log.Warnf], in order. *)
Definition warnings (t : list event) : list string :=
  omap (fun e => match e with EvWarnf msg => Some msg | _ => None end) t.

(** A call that reaches, or may reach, the API client or the server. *)
Definition isClientCall (e : event) : bool :=
  match e with
  | EvNewAPIClient _ | EvNewInfoServiceClient | EvGetVersion _ _ => true
  | _ => false
  end.

Definition isVersionRequest (e : event) : bool :=
  match e with EvGetVersion _ _ => true | _ => false end.

(** The three calls that precede the comparison of the versions; [ctx] is
    the context handed back by [client.NewAPIClient]. *)
Definition requestCalls (command : Command) (ctx : context_Context) : list event :=
  [EvNewAPIClient (Context command); EvNewInfoServiceClient;
   EvGetVersion ctx mkGetVersionRequest].

End Embedding.

(** [s] has [sub] as a contiguous part. *)
Definition contains (s sub : string) : Prop :=
  exists pre post : string, s = pre +:+ sub +:+ post.

(** The fixed text each of the three [log.Warnf] format strings of
    [printVersionMismatchWarning] starts with, up to its first verb. *)
Definition clientFailurePrefix : string := "Failed create service client: ".

Definition requestFailurePrefix : string := "Failed to connect to Argo Server: ".

Definition mismatchPrefix : string := "CLI version (".

Arguments GitTag {OtherFields} v.
Arguments others {OtherFields} v.
Arguments GetVersion {context_Context OtherFields} i ctx req.
Arguments NewInfoServiceClient {context_Context OtherFields} c.
Arguments Use {context_Context} c.
Arguments Short {context_Context} c.
Arguments commands {context_Context} c.
Arguments PersistentFlags {context_Context} c.
Arguments Context {context_Context} c.
Arguments argo_GetVersion {context_Context OtherFields} c.
Arguments client_NewAPIClient {context_Context OtherFields} c _.
Arguments client_AddKubectlFlagsToCmd {context_Context OtherFields} c _.
Arguments client_AddAPIClientFlagsToCmd {context_Context OtherFields} c _.
Arguments NewCompletionCommand {context_Context OtherFields} c.
Arguments NewDeleteCommand {context_Context OtherFields} c.
Arguments NewGetCommand {context_Context OtherFields} c.
Arguments NewLintCommand {context_Context OtherFields} c.
Arguments NewListCommand {context_Context OtherFields} c.
Arguments NewLogsCommand {context_Context OtherFields} c.
Arguments NewResubmitCommand {context_Context OtherFields} c.
Arguments NewResumeCommand {context_Context OtherFields} c.
Arguments NewRetryCommand {context_Context OtherFields} c.
Arguments NewServerCommand {context_Context OtherFields} c.
Arguments NewSubmitCommand {context_Context OtherFields} c.
Arguments NewSuspendCommand {context_Context OtherFields} c.
Arguments auth_NewAuthCommand {context_Context OtherFields} c.
Arguments NewWaitCommand {context_Context OtherFields} c.
Arguments NewWatchCommand {context_Context OtherFields} c.
Arguments NewCpCommand {context_Context OtherFields} c.
Arguments NewStopCommand {context_Context OtherFields} c.
Arguments NewNodeCommand {context_Context OtherFields} c.
Arguments NewTerminateCommand {context_Context OtherFields} c.
Arguments archive_NewArchiveCommand {context_Context OtherFields} c.
Arguments NewVersionCommand {context_Context OtherFields} c.
Arguments template_NewTemplateCommand {context_Context OtherFields} c.
Arguments cron_NewCronWorkflowCommand {context_Context OtherFields} c.
Arguments clustertemplate_NewClusterTemplateCommand {context_Context OtherFields} c.
Arguments executorplugin_NewRootCommand {context_Context OtherFields} c.
Arguments mkCommand {context_Context} Use Short commands PersistentFlags Context.
Arguments EvNewAPIClient {context_Context OtherFields} ctx.
Arguments EvNewInfoServiceClient {context_Context OtherFields}.
Arguments EvGetVersion {context_Context OtherFields} ctx req.
Arguments EvWarnf {context_Context OtherFields} msg.
Arguments EvDebug {context_Context OtherFields} key value msg.
Arguments EvSetLogLevel {context_Context OtherFields} level.
Arguments EvSetGLogLevel {context_Context OtherFields} level.
Arguments EvHelp {context_Context OtherFields} cmd args.
Arguments ret {context_Context OtherFields A} a.
Arguments bind {context_Context OtherFields A B} m k.
Arguments emit {context_Context OtherFields} e.
Arguments trace {context_Context OtherFields A} m.
Arguments value {context_Context OtherFields A} m.
Arguments NewAPIClient {context_Context OtherFields} ext ctx.
Arguments call_NewInfoServiceClient {context_Context OtherFields} apiClient.
Arguments call_GetVersion {context_Context OtherFields} serviceClient ctx req.
Arguments log_Warnf {context_Context OtherFields} msg.
Arguments log_WithField_Debug {context_Context OtherFields} key v msg.
Arguments cli_SetLogLevel {context_Context OtherFields} level.
Arguments cmdutil_SetGLogLevel {context_Context OtherFields} level.
Arguments HelpFunc {context_Context OtherFields} cmd args.
Arguments printVersionMismatchWarning {context_Context OtherFields} ext environ command.
Arguments Run {context_Context OtherFields} cmd args.
Arguments PersistentPreRun {context_Context OtherFields} ext environ command vars cmd args.
Arguments AddCommand {context_Context} c command.
Arguments AddPersistentFlag {context_Context} f command.
Arguments StringVar {context_Context} name value usage _.
Arguments IntVar {context_Context} name value usage _.
Arguments BoolVarP {context_Context} name shorthand value usage _.
Arguments rootLiteral {context_Context} ctx.
Arguments registered {context_Context OtherFields} ext.
Arguments commandWithClientFlags {context_Context OtherFields} ext ctx.
Arguments NewCommand {context_Context OtherFields} ext ctx.
Arguments warnings {context_Context OtherFields} t.
Arguments isClientCall {context_Context OtherFields} e.
Arguments isVersionRequest {context_Context OtherFields} e.
Arguments requestCalls {context_Context OtherFields} command ctx.

(** The three flags declared at the end of [NewCommand]. *)
Definition loglevelFlag : Flag :=
  {| Name := "loglevel"; Shorthand := ""; DefValue := stringValue "info";
     Usage := "Set the logging level. One of: debug|info|warn|error" |}.

Definition gloglevelFlag : Flag :=
  {| Name := "gloglevel"; Shorthand := ""; DefValue := intValue 0;
     Usage := "Set the glog logging level" |}.

Definition verboseFlag : Flag :=
  {| Name := "verbose"; Shorthand := "v"; DefValue := boolValue false;
     Usage := "Enabled verbose logging, i.e. --loglevel debug" |}.

(** ** A process that a call may end

    [client.NewAPIClient] lives in package [client].  Its call at the head
    of [printVersionMismatchWarning] receives a context and a client and no
    error, so a client that cannot be built is not reported to the caller:
    the call ends the process ([log.Fatal]) instead of returning.  A run is
    followed here up to its end, which is a return or the end of the
    process. *)
Inductive Outcome (A : Type) :=
| Returned (a : A)
| Exited.
Arguments Returned {A} a.
Arguments Exited {A}.

Section Process.

Variables context_Context OtherFields : Type.

(** What [client.NewAPIClient] does in this process: [None] when it ends
    the process, [Some] of what it hands back when it returns. *)
Variable factory :
  context_Context -> option (context_Context * Client context_Context OtherFields).

(** [argo.GetVersion()] *)
Variable localVersion : Version OtherFields.

Variable environ : gmap string string.

(** The calls made up to the end of the run, and the end. *)
Definition P (A : Type) : Type := list (event context_Context OtherFields) * Outcome A.

(** Nothing follows a call that ended the process. *)
Definition andThen {A B} (m : P A) (k : A -> P B) : P B :=
  match m with
  | (t1, Returned a) => let (t2, o) := k a in (t1 ++ t2, o)
  | (t1, Exited) => (t1, Exited)
  end.

(** A call that returns. *)
Definition returning {A} (m : M context_Context OtherFields A) : P A :=
  (trace m, Returned (value m)).

Definition NewAPIClient_orExit (ctx : context_Context)
    : P (context_Context * Client context_Context OtherFields) :=
  ([EvNewAPIClient ctx],
   match factory ctx with
   | Some answer => Returned answer
   | None => Exited
   end).

Local Notation "x <- m ;; k" := (andThen m (fun x => k))
  (at level 100, m at next level, right associativity).
Local Notation "m ;;; k" := (andThen m (fun _ => k))
  (at level 100, right associativity).

(** [printVersionMismatchWarning], run in this process. *)
Definition printVersionMismatchWarning_inProcess (command : Command context_Context)
    : P unit :=
  match os_LookupEnv environ "ARGO_SERVER" with
  | None => returning (ret tt)
  | Some _ =>
    p <- NewAPIClient_orExit (Context command) ;;
    let (ctx, apiClient) := p in
    r <- returning (call_NewInfoServiceClient apiClient) ;;
    match r with
    | Err err => returning (log_Warnf ("Failed create service client: " +:+ Error err))
    | Ok serviceClient =>
      r <- returning (call_GetVersion serviceClient ctx mkGetVersionRequest) ;;
      match r with
      | Err err => returning (log_Warnf ("Failed to connect to Argo Server: " +:+ Error err))
      | Ok serverVersion =>
        if negb (String.eqb (GitTag serverVersion) (GitTag localVersion))
        then returning (log_Warnf ("CLI version (" +:+ GitTag localVersion
                        +:+ ") does not match server version ("
                        +:+ GitTag serverVersion
                        +:+ "). This can lead to unexpected behavior."))
        else returning (ret tt)
      end
    end
  end.

(** The [PersistentPreRun] closure of the root command, run in this
    process. *)
Definition PersistentPreRun_inProcess (command : Command context_Context) (vars : Flags)
    (cmd : Command context_Context) (args : list string) : P Flags :=
  let vars :=
    if verbose vars
    then {| logLevel := "debug"; glogLevel := 6; verbose := verbose vars |}
    else vars in
  returning (cli_SetLogLevel (logLevel vars)) ;;;
  returning (cmdutil_SetGLogLevel (glogLevel vars)) ;;;
  returning (log_WithField_Debug "version" localVersion "CLI version") ;;;
  printVersionMismatchWarning_inProcess command ;;;
  returning (ret vars).

End Process.

Arguments andThen {context_Context OtherFields A B} m k.
Arguments returning {context_Context OtherFields A} m.
Arguments NewAPIClient_orExit {context_Context OtherFields} factory ctx.
Arguments printVersionMismatchWarning_inProcess {context_Context OtherFields}
  factory localVersion environ command.
Arguments PersistentPreRun_inProcess {context_Context OtherFields}
  factory localVersion environ command vars cmd args.

(** ** Sample processes

    Concrete collaborators on which the statements below are run: contexts
    are [unit], and the unread part of a version is its commit. *)
Module Samples.

Definition leaf (name : string) : Command unit :=
  mkCommand name "" [] [] tt.

Definition version (tag commit : string) : Version string :=
  {| GitTag := tag; others := commit |}.

(** A process whose API client is [apiClient] and whose build is [local];
    the helpers of package [client] add the flags [addFlags]. *)
Definition process (local : Version string) (apiClient : Client unit string)
    (addFlags : list Flag) : Collaborators unit string :=
  {| argo_GetVersion := local;
     client_NewAPIClient := fun ctx => (ctx, apiClient);
     client_AddKubectlFlagsToCmd := fun command => command;
     client_AddAPIClientFlagsToCmd :=
       fun command => fold_left (fun c f => AddPersistentFlag f c) addFlags command;
     NewCompletionCommand := leaf "completion";
     NewDeleteCommand := leaf "delete";
     NewGetCommand := leaf "get";
     NewLintCommand := leaf "lint";
     NewListCommand := leaf "list";
     NewLogsCommand := leaf "logs";
     NewResubmitCommand := leaf "resubmit";
     NewResumeCommand := leaf "resume";
     NewRetryCommand := leaf "retry";
     NewServerCommand := leaf "server";
     NewSubmitCommand := leaf "submit";
     NewSuspendCommand := leaf "suspend";
     auth_NewAuthCommand := leaf "auth";
     NewWaitCommand := leaf "wait";
     NewWatchCommand := leaf "watch";
     NewCpCommand := leaf "cp";
     NewStopCommand := leaf "stop";
     NewNodeCommand := leaf "node";
     NewTerminateCommand := leaf "terminate";
     archive_NewArchiveCommand := leaf "archive";
     NewVersionCommand := leaf "version";
     template_NewTemplateCommand := leaf "template";
     cron_NewCronWorkflowCommand := leaf "cron";
     clustertemplate_NewClusterTemplateCommand := leaf "cluster-template";
     executorplugin_NewRootCommand := leaf "executor-plugin" |}.

(** A server that answers [GetVersion] with [remote]. *)
Definition serving (remote : Version string) : Client unit string :=
  {| NewInfoServiceClient := Ok {| GetVersion := fun _ _ => Ok remote |} |}.

(** A server whose [GetVersion] fails with [msg]. *)
Definition unreachable (msg : string) : Client unit string :=
  {| NewInfoServiceClient := Ok {| GetVersion := fun _ _ => Err {| Error := msg |} |} |}.

(** An API client that cannot build the info-service client. *)
Definition broken (msg : string) : Client unit string :=
  {| NewInfoServiceClient := Err {| Error := msg |} |}.

Definition local : Version string := version "v3.4.0" "5e1a2b3".

Definition withServer (v : string) : gmap string string := {[ "ARGO_SERVER" := v ]}.

(** The flag that the API-client helper is named after. *)
Definition argoServerFlag : Flag :=
  {| Name := "argo-server"; Shorthand := "s"; DefValue := stringValue "";
     Usage := "API server host:port" |}.

Definition root (ext : Collaborators unit string) : Command unit := NewCommand ext tt.

(** An environment without [ARGO_SERVER]. *)
Definition bare : gmap string string := {[ "KUBECONFIG" := "/dev/null" ]}.

(** A server of the same release as [local], built from another commit. *)
Definition sameTag : Version string := version "v3.4.0" "0c7e9d1".

Definition older : Version string := version "v3.3.8" "9a4f6e2".

Definition refused : string := "connection refused".

(** A release candidate of the release of [local]. *)
Definition candidate : Version string := version "v3.4.0-rc1" "5e1a2b3".

(** A [client.NewAPIClient] that cannot build its client. *)
Definition noClient : unit -> option (unit * Client unit string) := fun _ => None.

End Samples.

(** ** Strings *)

Lemma append_cons (ch : Ascii.ascii) (a b : string) :
  String ch a +:+ b = String ch (a +:+ b).
Proof. reflexivity. Qed.

Lemma append_assoc (a b c : string) : (a +:+ b) +:+ c = a +:+ b +:+ c.
Proof.
  induction a as [|ch a IH]; [reflexivity |].
  rewrite !append_cons. by rewrite IH.
Qed.

Lemma append_empty_r (a : string) : a +:+ "" = a.
Proof.
  induction a as [|ch a IH]; [reflexivity |].
  rewrite append_cons. by rewrite IH.
Qed.

Lemma contains_suffix (pre s : string) : contains (pre +:+ s) s.
Proof. exists pre, "". by rewrite append_empty_r. Qed.

Lemma contains_inside (pre s post : string) : contains (pre +:+ s +:+ post) s.
Proof. by exists pre, post. Qed.

(** The warning of a version mismatch names both versions. *)
Lemma mismatch_message_names_both (a l b r c : string) :
  contains (a +:+ l +:+ b +:+ r +:+ c) l /\ contains (a +:+ l +:+ b +:+ r +:+ c) r.
Proof.
  split; [apply contains_inside |].
  exists (a +:+ l +:+ b), c. by rewrite !append_assoc.
Qed.

(** ** printVersionMismatchWarning, path by path *)

Section Checker.

Context {context_Context OtherFields : Type}.
Variable ext : Collaborators context_Context OtherFields.

Implicit Types (environ : gmap string string) (command : Command context_Context)
  (ctx : context_Context) (apiClient : Client context_Context OtherFields)
  (serviceClient : InfoServiceClient context_Context OtherFields)
  (serverVersion : Version OtherFields) (err : error).

Lemma checker_unset environ command :
  environ !! "ARGO_SERVER" = None ->
  printVersionMismatchWarning ext environ command = ([], tt).
Proof.
  intros Henv. unfold printVersionMismatchWarning, os_LookupEnv.
  by rewrite Henv.
Qed.

Lemma checker_client_error environ command v ctx apiClient err :
  environ !! "ARGO_SERVER" = Some v ->
  client_NewAPIClient ext (Context command) = (ctx, apiClient) ->
  NewInfoServiceClient apiClient = Err err ->
  printVersionMismatchWarning ext environ command =
    ([EvNewAPIClient (Context command); EvNewInfoServiceClient;
      EvWarnf ("Failed create service client: " +:+ Error err)], tt).
Proof.
  intros Henv Hapi Hsvc.
  unfold printVersionMismatchWarning, os_LookupEnv, NewAPIClient,
    call_NewInfoServiceClient.
  rewrite Henv. cbn. rewrite Hapi. cbn. by rewrite Hsvc.
Qed.

Lemma checker_request_error environ command v ctx apiClient serviceClient err :
  environ !! "ARGO_SERVER" = Some v ->
  client_NewAPIClient ext (Context command) = (ctx, apiClient) ->
  NewInfoServiceClient apiClient = Ok serviceClient ->
  GetVersion serviceClient ctx mkGetVersionRequest = Err err ->
  printVersionMismatchWarning ext environ command =
    (requestCalls command ctx ++
      [EvWarnf ("Failed to connect to Argo Server: " +:+ Error err)], tt).
Proof.
  intros Henv Hapi Hsvc Hget.
  unfold printVersionMismatchWarning, os_LookupEnv, NewAPIClient,
    call_NewInfoServiceClient, call_GetVersion.
  rewrite Henv. cbn. rewrite Hapi. cbn. rewrite Hsvc. cbn. by rewrite Hget.
Qed.

Lemma checker_compared environ command v ctx apiClient serviceClient serverVersion :
  environ !! "ARGO_SERVER" = Some v ->
  client_NewAPIClient ext (Context command) = (ctx, apiClient) ->
  NewInfoServiceClient apiClient = Ok serviceClient ->
  GetVersion serviceClient ctx mkGetVersionRequest = Ok serverVersion ->
  printVersionMismatchWarning ext environ command =
    (requestCalls command ctx ++
      (if String.eqb (GitTag serverVersion) (GitTag (argo_GetVersion ext))
       then []
       else [EvWarnf ("CLI version (" +:+ GitTag (argo_GetVersion ext)
                      +:+ ") does not match server version ("
                      +:+ GitTag serverVersion
                      +:+ "). This can lead to unexpected behavior.")]), tt).
Proof.
  intros Henv Hapi Hsvc Hget.
  unfold printVersionMismatchWarning, os_LookupEnv, NewAPIClient,
    call_NewInfoServiceClient, call_GetVersion.
  rewrite Henv. cbn. rewrite Hapi. cbn. rewrite Hsvc. cbn. rewrite Hget.
  by destruct (String.eqb _ _).
Qed.

End Checker.

(** ** The pre-run hook *)

Section Hook.

Context {context_Context OtherFields : Type}.
Variable ext : Collaborators context_Context OtherFields.

Implicit Types (environ : gmap string string) (command cmd : Command context_Context)
  (vars : Flags) (args : list string).

(** What the hook does is fixed by the flag variables it ends up with. *)
Lemma hook_unfold environ command vars cmd args :
  PersistentPreRun ext environ command vars cmd args =
    (let vars' :=
       if verbose vars
       then {| logLevel := "debug"; glogLevel := 6; verbose := verbose vars |}
       else vars in
     ([EvSetLogLevel (logLevel vars'); EvSetGLogLevel (glogLevel vars');
       EvDebug "version" (argo_GetVersion ext) "CLI version"]
        ++ trace (printVersionMismatchWarning ext environ command), vars')).
Proof.
  unfold PersistentPreRun, cli_SetLogLevel, cmdutil_SetGLogLevel,
    log_WithField_Debug, emit, ret, bind, trace.
  destruct (printVersionMismatchWarning ext environ command) as [t []].
  cbn. by rewrite app_nil_r.
Qed.

(** C1.  When [verbose] is set, the hook overwrites [logLevel] with
    ["debug"] and [glogLevel] with [6] whatever they held, and the two
    loggers are configured with these values, first thing in the hook;
    when it is not set, the loggers are configured with the parsed values
    and the variables are left as they were. *)
Theorem verbose_forces_debug_levels environ command vars cmd args :
  (verbose vars = true ->
    PersistentPreRun ext environ command vars cmd args =
      ([EvSetLogLevel "debug"; EvSetGLogLevel 6;
        EvDebug "version" (argo_GetVersion ext) "CLI version"]
         ++ trace (printVersionMismatchWarning ext environ command),
       {| logLevel := "debug"; glogLevel := 6; verbose := true |}))
  /\
  (verbose vars = false ->
    PersistentPreRun ext environ command vars cmd args =
      ([EvSetLogLevel (logLevel vars); EvSetGLogLevel (glogLevel vars);
        EvDebug "version" (argo_GetVersion ext) "CLI version"]
         ++ trace (printVersionMismatchWarning ext environ command),
       vars)).
Proof.
  split; intros Hv; rewrite hook_unfold, Hv; reflexivity.
Qed.

End Hook.

(** ** The compatibility check *)

Section Compatibility.

Context {context_Context OtherFields : Type}.
Variable ext : Collaborators context_Context OtherFields.

Implicit Types (environ : gmap string string) (command cmd : Command context_Context)
  (ctx : context_Context) (apiClient : Client context_Context OtherFields)
  (serviceClient : InfoServiceClient context_Context OtherFields)
  (serverVersion : Version OtherFields) (err : error)
  (vars : Flags) (args : list string).

(** C2.  With [ARGO_SERVER] absent from the environment the check returns
    at once: its trace is empty, so the API client factory is not called,
    nothing goes to the network and no warning is logged. *)
Theorem unset_endpoint_skips_check environ command :
  environ !! "ARGO_SERVER" = None ->
  printVersionMismatchWarning ext environ command = ([], tt)
  /\ Forall (fun e => isClientCall e = false)
       (trace (printVersionMismatchWarning ext environ command))
  /\ warnings (trace (printVersionMismatchWarning ext environ command)) = [].
Proof.
  intros Henv. rewrite (checker_unset ext _ _ Henv). by repeat split.
Qed.

(** C3.  With [ARGO_SERVER] set and [NewInfoServiceClient] returning an
    error, the check logs one warning, which carries the text of the
    error, sends no [GetVersion] request and returns; the hook returns
    right after it. *)
Theorem client_error_warns_once environ command v ctx apiClient err vars cmd args :
  environ !! "ARGO_SERVER" = Some v ->
  client_NewAPIClient ext (Context command) = (ctx, apiClient) ->
  NewInfoServiceClient apiClient = Err err ->
  exists msg t,
    printVersionMismatchWarning ext environ command = (t, tt)
    /\ t = [EvNewAPIClient (Context command); EvNewInfoServiceClient; EvWarnf msg]
    /\ warnings t = [msg]
    /\ contains msg (Error err)
    /\ Forall (fun e => isVersionRequest e = false) t
    /\ exists pre vars',
         PersistentPreRun ext environ command vars cmd args = (pre ++ t, vars').
Proof.
  intros Henv Hapi Hsvc.
  eexists _, _. split; [by eapply checker_client_error |].
  repeat split.
  - apply contains_suffix.
  - by repeat constructor.
  - rewrite hook_unfold, (checker_client_error ext _ _ _ _ _ _ Henv Hapi Hsvc).
    by eexists _, _.
Qed.

(** C4.  With the client built and the [GetVersion] request failing, the
    check has sent that one request, logs one warning, which carries the
    text of the error, and returns.  The versions are not compared: the
    outcome is the same for every build of the CLI that is given the same
    API client. *)
Theorem request_error_warns_once environ command v ctx apiClient serviceClient err :
  environ !! "ARGO_SERVER" = Some v ->
  client_NewAPIClient ext (Context command) = (ctx, apiClient) ->
  NewInfoServiceClient apiClient = Ok serviceClient ->
  GetVersion serviceClient ctx mkGetVersionRequest = Err err ->
  exists msg t,
    printVersionMismatchWarning ext environ command = (t, tt)
    /\ t = requestCalls command ctx ++ [EvWarnf msg]
    /\ warnings t = [msg]
    /\ contains msg (Error err)
    /\ length (List.filter isVersionRequest t) = 1%nat
    /\ forall ext' : Collaborators context_Context OtherFields,
         client_NewAPIClient ext' (Context command) = (ctx, apiClient) ->
         printVersionMismatchWarning ext' environ command = (t, tt).
Proof.
  intros Henv Hapi Hsvc Hget.
  eexists _, _. split; [by eapply checker_request_error |].
  repeat split.
  - apply contains_suffix.
  - intros ext' Hapi'. by eapply checker_request_error.
Qed.

(** C5.  After a successful [GetVersion] the tag of the server is compared
    with the tag of the CLI as strings.  Equal tags: nothing is logged,
    the trace holds the three calls only.  Different tags: one warning is
    logged, and its text has both the tag of the CLI and the tag of the
    server in it. *)
Theorem compare_by_tag_equality environ command v ctx apiClient serviceClient serverVersion :
  environ !! "ARGO_SERVER" = Some v ->
  client_NewAPIClient ext (Context command) = (ctx, apiClient) ->
  NewInfoServiceClient apiClient = Ok serviceClient ->
  GetVersion serviceClient ctx mkGetVersionRequest = Ok serverVersion ->
  (GitTag serverVersion = GitTag (argo_GetVersion ext) ->
     printVersionMismatchWarning ext environ command = (requestCalls command ctx, tt))
  /\
  (GitTag serverVersion <> GitTag (argo_GetVersion ext) ->
     exists msg t,
       printVersionMismatchWarning ext environ command = (t, tt)
       /\ t = requestCalls command ctx ++ [EvWarnf msg]
       /\ warnings t = [msg]
       /\ contains msg (GitTag (argo_GetVersion ext))
       /\ contains msg (GitTag serverVersion)).
Proof.
  intros Henv Hapi Hsvc Hget.
  rewrite (checker_compared ext _ _ _ _ _ _ _ Henv Hapi Hsvc Hget).
  split.
  - intros ->. by rewrite String.eqb_refl, app_nil_r.
  - intros Hne. apply String.eqb_neq in Hne. rewrite Hne.
    eexists _, _. split; [reflexivity |]. do 2 (split; [reflexivity |]).
    apply mismatch_message_names_both.
Qed.

(** Every run of the check ends in one of five ways. *)
Lemma checker_cases environ command :
  exists t, printVersionMismatchWarning ext environ command = (t, tt)
    /\ (warnings t = [] \/ exists msg, warnings t = [msg]).
Proof.
  destruct (environ !! "ARGO_SERVER") as [v|] eqn:Henv.
  2: { eexists. split; [by apply checker_unset | by left]. }
  destruct (client_NewAPIClient ext (Context command)) as [ctx apiClient] eqn:Hapi.
  destruct (NewInfoServiceClient apiClient) as [serviceClient|err] eqn:Hsvc.
  2: { eexists. split; [by eapply checker_client_error | right; by eexists]. }
  destruct (GetVersion serviceClient ctx mkGetVersionRequest)
    as [serverVersion|err] eqn:Hget.
  2: { eexists. split; [by eapply checker_request_error | right; by eexists]. }
  eexists. split; [by eapply checker_compared |].
  destruct (String.eqb _ _); [by left | right; by eexists].
Qed.

(** C9.  The gate looks at the presence of [ARGO_SERVER] only.  Set to the
    empty string, the check goes on to the API client factory; and any
    two environments that have the variable set, to whatever values, give
    the same run. *)
Theorem empty_endpoint_still_checks environ command :
  environ !! "ARGO_SERVER" = Some "" ->
  (exists rest,
     trace (printVersionMismatchWarning ext environ command) =
       EvNewAPIClient (Context command) :: rest)
  /\ forall environ' v,
       environ' !! "ARGO_SERVER" = Some v ->
       printVersionMismatchWarning ext environ' command =
         printVersionMismatchWarning ext environ command.
Proof.
  intros Henv. split.
  - destruct (client_NewAPIClient ext (Context command)) as [ctx apiClient] eqn:Hapi.
    destruct (NewInfoServiceClient apiClient) as [serviceClient|err] eqn:Hsvc.
    2: { rewrite (checker_client_error ext _ _ _ _ _ _ Henv Hapi Hsvc). by eexists. }
    destruct (GetVersion serviceClient ctx mkGetVersionRequest)
      as [serverVersion|err] eqn:Hget.
    2: { rewrite (checker_request_error ext _ _ _ _ _ _ _ Henv Hapi Hsvc Hget).
         by eexists. }
    rewrite (checker_compared ext _ _ _ _ _ _ _ Henv Hapi Hsvc Hget). by eexists.
  - intros environ' v Henv'.
    unfold printVersionMismatchWarning, os_LookupEnv. by rewrite Henv, Henv'.
Qed.

(** C10.  Only [GitTag] is read from the two version structures: when the
    tags are equal the run is the one of matching versions, with no
    warning, whatever the other fields hold. *)
Theorem only_git_tag_is_compared environ command v ctx apiClient serviceClient serverVersion :
  environ !! "ARGO_SERVER" = Some v ->
  client_NewAPIClient ext (Context command) = (ctx, apiClient) ->
  NewInfoServiceClient apiClient = Ok serviceClient ->
  GetVersion serviceClient ctx mkGetVersionRequest = Ok serverVersion ->
  GitTag serverVersion = GitTag (argo_GetVersion ext) ->
  printVersionMismatchWarning ext environ command = (requestCalls command ctx, tt)
  /\ warnings (trace (printVersionMismatchWarning ext environ command)) = [].
Proof.
  intros Henv Hapi Hsvc Hget Htag.
  rewrite (checker_compared ext _ _ _ _ _ _ _ Henv Hapi Hsvc Hget), Htag.
  by rewrite String.eqb_refl, app_nil_r.
Qed.

End Compatibility.

(** ** The root command *)

Section Root.

Context {context_Context OtherFields : Type}.
Variable ext : Collaborators context_Context OtherFields.

(** Registering a command leaves the persistent flags alone. *)
Lemma AddCommand_flags (c command : Command context_Context) :
  PersistentFlags (AddCommand c command) = PersistentFlags command.
Proof. reflexivity. Qed.

Lemma AddPersistentFlag_flags (f : Flag) (command : Command context_Context) :
  PersistentFlags (AddPersistentFlag f command) = PersistentFlags command ++ [f].
Proof. reflexivity. Qed.

(** C7, amended.  [NewCommand] itself declares three persistent flags,
    [--loglevel] (string, default ["info"]), [--gloglevel] (integer,
    default [0]) and [--verbose] (boolean, shorthand [-v], default
    [false]); they come after the persistent flags that the two helpers
    of package [client] have put on the command. *)
Theorem root_declares_three_persistent_flags (ctx : context_Context) :
  PersistentFlags (NewCommand ext ctx) =
    PersistentFlags (commandWithClientFlags ext ctx)
      ++ [loglevelFlag; gloglevelFlag; verboseFlag].
Proof.
  unfold NewCommand, BoolVarP, IntVar, StringVar.
  rewrite !AddPersistentFlag_flags, <- !app_assoc. reflexivity.
Qed.

(** C8.  The body of the root command calls the help function of the
    command it is run on, and does nothing else: no call to the API
    client or to the server is in its trace. *)
Theorem root_run_only_prints_help (cmd : Command context_Context) (args : list string) :
  Run (OtherFields := OtherFields) cmd args = ([EvHelp cmd args], tt)
  /\ Forall (fun e => isClientCall e = false)
       (trace (Run (OtherFields := OtherFields) cmd args)).
Proof. split; [reflexivity | by repeat constructor]. Qed.

End Root.

(** ** The statements on the sample processes *)

Import Samples.

(** The commands of the root are the registered ones, in source order. *)
Example root_commands :
  map Use (commands (root (process local (serving local) []))) =
    [ "completion"; "delete"; "get"; "lint"; "list"; "logs"; "resubmit";
      "resume"; "retry"; "server"; "submit"; "suspend"; "auth"; "wait";
      "watch"; "cp"; "stop"; "node"; "terminate"; "archive"; "version";
      "template"; "cron"; "cluster-template"; "executor-plugin" ].
Proof. reflexivity. Qed.

(** Local [v3.4.0], server [v3.4.0]: the three calls, no warning. *)
Example scenario_match :
  printVersionMismatchWarning (process local (serving sameTag) [])
    (withServer "localhost:2746") (root (process local (serving sameTag) [])) =
    ([EvNewAPIClient tt; EvNewInfoServiceClient; EvGetVersion tt mkGetVersionRequest], tt).
Proof. vm_compute. reflexivity. Qed.

(** Local [v3.4.0], server [v3.3.8]: one warning naming both. *)
Example scenario_mismatch :
  warnings (trace (printVersionMismatchWarning (process local (serving older) [])
    (withServer "localhost:2746") (root (process local (serving older) [])))) =
    ["CLI version (v3.4.0) does not match server version (v3.3.8). This can lead to unexpected behavior."].
Proof. vm_compute. reflexivity. Qed.

(** With [--verbose], [--loglevel error --gloglevel 3] is overridden. *)
Lemma verbose_forces_debug_levels_witness :
  PersistentPreRun (process local (serving local) []) bare
      (root (process local (serving local) []))
      {| logLevel := "error"; glogLevel := 3; verbose := true |}
      (leaf "list") [] =
    ([EvSetLogLevel "debug"; EvSetGLogLevel 6; EvDebug "version" local "CLI version"],
     {| logLevel := "debug"; glogLevel := 6; verbose := true |})
  /\
  PersistentPreRun (process local (serving local) []) bare
      (root (process local (serving local) []))
      {| logLevel := "error"; glogLevel := 3; verbose := false |}
      (leaf "list") [] =
    ([EvSetLogLevel "error"; EvSetGLogLevel 3; EvDebug "version" local "CLI version"],
     {| logLevel := "error"; glogLevel := 3; verbose := false |}).
Proof.
  split.
  - exact (proj1 (verbose_forces_debug_levels (process local (serving local) []) bare
             (root (process local (serving local) []))
             {| logLevel := "error"; glogLevel := 3; verbose := true |}
             (leaf "list") []) eq_refl).
  - exact (proj2 (verbose_forces_debug_levels (process local (serving local) []) bare
             (root (process local (serving local) []))
             {| logLevel := "error"; glogLevel := 3; verbose := false |}
             (leaf "list") []) eq_refl).
Defined.

(** No [ARGO_SERVER]: nothing happens. *)
Lemma unset_endpoint_skips_check_witness :
  bare !! "ARGO_SERVER" = None
  /\ printVersionMismatchWarning (process local (serving older) []) bare
       (root (process local (serving older) [])) = ([], tt).
Proof.
  split; [reflexivity |].
  apply (unset_endpoint_skips_check (process local (serving older) []) bare
           (root (process local (serving older) []))).
  reflexivity.
Defined.

(** The info-service client cannot be built: one warning, no request. *)
Lemma client_error_warns_once_witness :
  exists msg t,
    printVersionMismatchWarning (process local (broken refused) [])
      (withServer "localhost:2746") (root (process local (broken refused) [])) = (t, tt)
    /\ t = [EvNewAPIClient tt; EvNewInfoServiceClient; EvWarnf msg]
    /\ warnings t = [msg]
    /\ contains msg refused.
Proof.
  destruct (client_error_warns_once (process local (broken refused) [])
              (withServer "localhost:2746") (root (process local (broken refused) []))
              "localhost:2746" tt (broken refused) {| Error := refused |}
              defaultFlags (leaf "list") [] eq_refl eq_refl eq_refl)
    as (msg & t & Hrun & Ht & Hw & Hc & _).
  exists msg, t. repeat split; assumption.
Defined.

(** The server does not answer: one request, one warning. *)
Lemma request_error_warns_once_witness :
  exists msg t,
    printVersionMismatchWarning (process local (unreachable refused) [])
      (withServer "localhost:2746") (root (process local (unreachable refused) [])) = (t, tt)
    /\ t = [EvNewAPIClient tt; EvNewInfoServiceClient;
            EvGetVersion tt mkGetVersionRequest; EvWarnf msg]
    /\ contains msg refused.
Proof.
  destruct (request_error_warns_once (process local (unreachable refused) [])
              (withServer "localhost:2746") (root (process local (unreachable refused) []))
              "localhost:2746" tt (unreachable refused)
              {| GetVersion := fun _ _ => Err {| Error := refused |} |}
              {| Error := refused |} eq_refl eq_refl eq_refl eq_refl)
    as (msg & t & Hrun & Ht & Hw & Hc & _).
  exists msg, t. repeat split; assumption.
Defined.

(** Server [v3.3.8] against CLI [v3.4.0]: a warning with both tags. *)
Lemma compare_by_tag_equality_witness :
  exists msg t,
    printVersionMismatchWarning (process local (serving older) [])
      (withServer "localhost:2746") (root (process local (serving older) [])) = (t, tt)
    /\ warnings t = [msg]
    /\ contains msg "v3.4.0"
    /\ contains msg "v3.3.8".
Proof.
  destruct (proj2 (compare_by_tag_equality (process local (serving older) [])
                     (withServer "localhost:2746") (root (process local (serving older) []))
                     "localhost:2746" tt (serving older)
                     {| GetVersion := fun _ _ => Ok older |} older
                     eq_refl eq_refl eq_refl eq_refl))
    as (msg & t & Hrun & Ht & Hw & Hl & Hr); [discriminate |].
  exists msg, t. repeat split; assumption.
Defined.

(** [ARGO_SERVER=] (empty): the factory is called all the same. *)
Lemma empty_endpoint_still_checks_witness :
  withServer "" !! "ARGO_SERVER" = Some ""
  /\ exists rest,
       trace (printVersionMismatchWarning (process local (serving older) [])
                (withServer "") (root (process local (serving older) []))) =
         EvNewAPIClient tt :: rest.
Proof.
  split; [reflexivity |].
  apply (empty_endpoint_still_checks (process local (serving older) [])
           (withServer "") (root (process local (serving older) []))).
  reflexivity.
Defined.

(** Same tag, another commit: no warning. *)
Lemma only_git_tag_is_compared_witness :
  others sameTag <> others local
  /\ printVersionMismatchWarning (process local (serving sameTag) [])
       (withServer "localhost:2746") (root (process local (serving sameTag) [])) =
       ([EvNewAPIClient tt; EvNewInfoServiceClient; EvGetVersion tt mkGetVersionRequest], tt).
Proof.
  split; [discriminate |].
  apply (only_git_tag_is_compared (process local (serving sameTag) [])
           (withServer "localhost:2746") (root (process local (serving sameTag) []))
           "localhost:2746" tt (serving sameTag)
           {| GetVersion := fun _ _ => Ok sameTag |} sameTag);
    reflexivity.
Defined.

(** C7 as stated fails once a helper of package [client] registers a
    persistent flag of its own: the root then has four, not three. *)
Lemma root_persistent_flags_not_only_three :
  map Name (PersistentFlags (root (process local (serving local) [argoServerFlag]))) =
    ["argo-server"; "loglevel"; "gloglevel"; "verbose"]
  /\ PersistentFlags (root (process local (serving local) [argoServerFlag])) <>
       [loglevelFlag; gloglevelFlag; verboseFlag].
Proof. split; [reflexivity | discriminate]. Qed.

(** ** Registration of the subcommands and of the flags *)

Section Registration.

Context {context_Context OtherFields : Type}.
Variable ext : Collaborators context_Context OtherFields.

Implicit Types (command c : Command context_Context) (l : list (Command context_Context)).

Lemma AddCommand_all_flags l command :
  PersistentFlags (fold_left (fun command c => AddCommand c command) l command) =
    PersistentFlags command.
Proof.
  revert command. induction l as [|c l IH]; intros command; simpl; [done |].
  by rewrite IH.
Qed.

(** X2.  When each helper of package [client] only adds persistent flags to
    the command it is given, the persistent flags of the root are the
    flags of [AddKubectlFlagsToCmd], then those of
    [AddAPIClientFlagsToCmd], then [--loglevel], [--gloglevel] and
    [--verbose]: registering subcommands contributes none. *)
Theorem root_flags_after_client_flags (ctx : context_Context) (lk la : list Flag) :
  (forall command,
     PersistentFlags (client_AddKubectlFlagsToCmd ext command) =
       PersistentFlags command ++ lk) ->
  (forall command,
     PersistentFlags (client_AddAPIClientFlagsToCmd ext command) =
       PersistentFlags command ++ la) ->
  PersistentFlags (NewCommand ext ctx) =
    lk ++ la ++ [loglevelFlag; gloglevelFlag; verboseFlag].
Proof.
  intros Hk Ha.
  unfold NewCommand, BoolVarP, IntVar, StringVar.
  rewrite !AddPersistentFlag_flags. unfold commandWithClientFlags.
  rewrite Ha, Hk, AddCommand_all_flags. simpl.
  by rewrite <- !app_assoc.
Qed.

End Registration.

(** ** Every run of the compatibility check *)

Lemma prefix_append (p s : string) : String.prefix p (p +:+ s) = true.
Proof.
  induction p as [|ch p IH]; [by destruct s |].
  rewrite append_cons. simpl. by destruct (Ascii.ascii_dec ch ch).
Qed.

Lemma append_longer (a s : string) : a +:+ s = a -> s = "".
Proof.
  intros H. apply (inj (String.append a)). by rewrite append_empty_r.
Qed.

Section Runs.

Context {context_Context OtherFields : Type}.
Variable ext : Collaborators context_Context OtherFields.

Implicit Types (environ : gmap string string) (command cmd : Command context_Context)
  (serviceClient : InfoServiceClient context_Context OtherFields)
  (serverVersion : Version OtherFields) (err : error)
  (vars : Flags) (args : list string).

(** X3.  The check calls its collaborators in one fixed order, each at most
    once: a run is a beginning of [NewAPIClient] on the context of the
    command, [NewInfoServiceClient], [GetVersion] on the context that
    [NewAPIClient] handed back, followed by at most one warning, after
    which nothing more is called. *)
Theorem checker_trace_shape environ command :
  exists (n : nat) (w : list string),
    trace (printVersionMismatchWarning ext environ command) =
      take n (requestCalls command (fst (client_NewAPIClient ext (Context command))))
        ++ map EvWarnf w
    /\ (length w <= 1)%nat
    /\ warnings (trace (printVersionMismatchWarning ext environ command)) = w.
Proof.
  destruct (environ !! "ARGO_SERVER") as [v|] eqn:Henv.
  2: { exists 0%nat, []. rewrite (checker_unset ext _ _ Henv).
       split_and!; [reflexivity | simpl; lia | reflexivity]. }
  destruct (client_NewAPIClient ext (Context command)) as [ctx apiClient] eqn:Hapi.
  destruct (NewInfoServiceClient apiClient) as [serviceClient|err] eqn:Hsvc.
  2: { exists 2%nat, [clientFailurePrefix +:+ Error err].
       rewrite (checker_client_error ext _ _ _ _ _ _ Henv Hapi Hsvc).
       split_and!; [reflexivity | simpl; lia | reflexivity]. }
  destruct (GetVersion serviceClient ctx mkGetVersionRequest)
    as [serverVersion|err] eqn:Hget.
  2: { exists 3%nat, [requestFailurePrefix +:+ Error err].
       rewrite (checker_request_error ext _ _ _ _ _ _ _ Henv Hapi Hsvc Hget).
       split_and!; [reflexivity | simpl; lia | reflexivity]. }
  rewrite (checker_compared ext _ _ _ _ _ _ _ Henv Hapi Hsvc Hget).
  destruct (String.eqb _ _).
  - exists 3%nat, []. split_and!; [reflexivity | simpl; lia | reflexivity].
  - eexists 3%nat, [_]. split_and!; [reflexivity | simpl; lia | reflexivity].
Qed.


(** The [GetVersion] requests of a run. *)
Lemma checker_requests environ command :
  List.filter isVersionRequest (trace (printVersionMismatchWarning ext environ command)) =
    match environ !! "ARGO_SERVER",
          NewInfoServiceClient (snd (client_NewAPIClient ext (Context command))) with
    | Some _, Ok _ =>
        [EvGetVersion (fst (client_NewAPIClient ext (Context command))) mkGetVersionRequest]
    | _, _ => []
    end.
Proof.
  destruct (environ !! "ARGO_SERVER") as [v|] eqn:Henv.
  2: { by rewrite (checker_unset ext _ _ Henv). }
  destruct (client_NewAPIClient ext (Context command)) as [ctx apiClient] eqn:Hapi.
  simpl.
  destruct (NewInfoServiceClient apiClient) as [serviceClient|err] eqn:Hsvc.
  2: { by rewrite (checker_client_error ext _ _ _ _ _ _ Henv Hapi Hsvc). }
  destruct (GetVersion serviceClient ctx mkGetVersionRequest)
    as [serverVersion|err] eqn:Hget.
  2: { by rewrite (checker_request_error ext _ _ _ _ _ _ _ Henv Hapi Hsvc Hget). }
  rewrite (checker_compared ext _ _ _ _ _ _ _ Henv Hapi Hsvc Hget).
  by destruct (String.eqb _ _).
Qed.


(** X5.  The server is asked for its version exactly when [ARGO_SERVER] is
    set and the info-service client could be built, and then once, with
    the context handed back by [NewAPIClient]; in every other run no
    request leaves the process. *)
Theorem version_requests_of_a_run environ command :
  List.filter isVersionRequest (trace (printVersionMismatchWarning ext environ command)) =
    match environ !! "ARGO_SERVER",
          NewInfoServiceClient (snd (client_NewAPIClient ext (Context command))) with
    | Some _, Ok _ =>
        [EvGetVersion (fst (client_NewAPIClient ext (Context command))) mkGetVersionRequest]
    | _, _ => []
    end.
Proof. apply checker_requests. Qed.

(** What the hook does before the check is neither a warning nor a
    request to the server. *)
Lemma hook_trace environ command vars cmd args :
  exists l,
    trace (PersistentPreRun ext environ command vars cmd args) =
      l ++ trace (printVersionMismatchWarning ext environ command)
    /\ warnings l = []
    /\ List.filter isVersionRequest l = [].
Proof. rewrite hook_unfold. by eexists. Qed.

Lemma warnings_app (t1 t2 : list (event context_Context OtherFields)) :
  warnings (t1 ++ t2) = warnings t1 ++ warnings t2.
Proof. apply omap_app. Qed.

(** X7.  The warnings of the whole hook are those of the compatibility
    check, so one invocation of the CLI logs at most one warning from the
    hook and sends at most one [GetVersion] request. *)
Theorem hook_warns_and_requests_at_most_once environ command vars cmd args :
  warnings (trace (PersistentPreRun ext environ command vars cmd args)) =
    warnings (trace (printVersionMismatchWarning ext environ command))
  /\ (length (warnings (trace (PersistentPreRun ext environ command vars cmd args)))
        <= 1)%nat
  /\ (length (List.filter isVersionRequest
                (trace (PersistentPreRun ext environ command vars cmd args))) <= 1)%nat.
Proof.
  destruct (hook_trace environ command vars cmd args) as (l & -> & Hw & Hf).
  rewrite warnings_app, List.filter_app, Hw, Hf. simpl.
  split; [reflexivity |]. split.
  - destruct (checker_cases ext environ command) as (t & Ht & Hcases).
    rewrite Ht. cbn [trace fst].
    destruct Hcases as [-> | [msg ->]]; simpl; lia.
  - rewrite checker_requests. repeat case_match; simpl; lia.
Qed.

(** X8.  A warning of the check tells by its opening words where the check
    stopped.  Every warning opens with one of the three fixed texts; one
    that opens with the first means the info-service client could not be
    built, with the second that the client was built and [GetVersion]
    failed, with the third that the server answered with a tag other than
    the tag of the CLI.  The text of the error cannot blur this. *)
Theorem warning_names_its_stage environ command msg :
  In msg (warnings (trace (printVersionMismatchWarning ext environ command))) ->
  (String.prefix clientFailurePrefix msg = true
   \/ String.prefix requestFailurePrefix msg = true
   \/ String.prefix mismatchPrefix msg = true)
  /\ (String.prefix clientFailurePrefix msg = true ->
      exists err,
        NewInfoServiceClient (snd (client_NewAPIClient ext (Context command))) = Err err)
  /\ (String.prefix requestFailurePrefix msg = true ->
      exists serviceClient err,
        NewInfoServiceClient (snd (client_NewAPIClient ext (Context command))) =
          Ok serviceClient
        /\ GetVersion serviceClient (fst (client_NewAPIClient ext (Context command)))
             mkGetVersionRequest = Err err)
  /\ (String.prefix mismatchPrefix msg = true ->
      exists serviceClient serverVersion,
        NewInfoServiceClient (snd (client_NewAPIClient ext (Context command))) =
          Ok serviceClient
        /\ GetVersion serviceClient (fst (client_NewAPIClient ext (Context command)))
             mkGetVersionRequest = Ok serverVersion
        /\ GitTag serverVersion <> GitTag (argo_GetVersion ext)).
Proof.
  destruct (environ !! "ARGO_SERVER") as [v|] eqn:Henv.
  2: { rewrite (checker_unset ext _ _ Henv). intros []. }
  destruct (client_NewAPIClient ext (Context command)) as [ctx apiClient] eqn:Hapi.
  cbn [fst snd].
  destruct (NewInfoServiceClient apiClient) as [serviceClient|err] eqn:Hsvc.
  2: { rewrite (checker_client_error ext _ _ _ _ _ _ Henv Hapi Hsvc).
       intros [<- | []]. split_and!.
       - left. apply prefix_append.
       - intros _. by exists err.
       - intros H. vm_compute in H. discriminate.
       - intros H. vm_compute in H. discriminate. }
  destruct (GetVersion serviceClient ctx mkGetVersionRequest)
    as [serverVersion|err] eqn:Hget.
  2: { rewrite (checker_request_error ext _ _ _ _ _ _ _ Henv Hapi Hsvc Hget).
       intros [<- | []]. split_and!.
       - right; left. apply prefix_append.
       - intros H. vm_compute in H. discriminate.
       - intros _. by exists serviceClient, err.
       - intros H. vm_compute in H. discriminate. }
  rewrite (checker_compared ext _ _ _ _ _ _ _ Henv Hapi Hsvc Hget).
  destruct (String.eqb_spec (GitTag serverVersion) (GitTag (argo_GetVersion ext)))
    as [Heq | Hne]; [intros [] |].
  intros [<- | []]. split_and!.
  - right; right. apply prefix_append.
  - intros H. vm_compute in H. discriminate.
  - intros H. vm_compute in H. discriminate.
  - intros _. by exists serviceClient, serverVersion.
Qed.

(** X9.  Tags are compared whole, not as versions: when one tag is the
    other with something appended, as a release and its release candidate
    are, the check logs its warning. *)
Theorem longer_tag_is_a_mismatch environ command v ctx apiClient serviceClient
    serverVersion (suffix : string) :
  environ !! "ARGO_SERVER" = Some v ->
  client_NewAPIClient ext (Context command) = (ctx, apiClient) ->
  NewInfoServiceClient apiClient = Ok serviceClient ->
  GetVersion serviceClient ctx mkGetVersionRequest = Ok serverVersion ->
  suffix <> "" ->
  GitTag serverVersion = GitTag (argo_GetVersion ext) +:+ suffix
  \/ GitTag (argo_GetVersion ext) = GitTag serverVersion +:+ suffix ->
  exists msg,
    warnings (trace (printVersionMismatchWarning ext environ command)) = [msg]
    /\ String.prefix mismatchPrefix msg = true.
Proof.
  intros Henv Hapi Hsvc Hget Hsuffix Htags.
  rewrite (checker_compared ext _ _ _ _ _ _ _ Henv Hapi Hsvc Hget).
  destruct (String.eqb_spec (GitTag serverVersion) (GitTag (argo_GetVersion ext)))
    as [Heq | Hne].
  - exfalso. apply Hsuffix.
    destruct Htags as [H | H]; rewrite Heq in H; symmetry in H;
      by apply append_longer in H.
  - eexists. split; [reflexivity | apply prefix_append].
Qed.

End Runs.

(** ** The further statements on the sample processes *)

(** One flag from the API-client helper, then the three of the root. *)
Lemma root_flags_after_client_flags_witness :
  PersistentFlags (root (process local (serving local) [argoServerFlag])) =
    [argoServerFlag; loglevelFlag; gloglevelFlag; verboseFlag].
Proof.
  apply (root_flags_after_client_flags
           (process local (serving local) [argoServerFlag]) tt [] [argoServerFlag]);
    intros command; [symmetry; apply app_nil_r | reflexivity].
Defined.

(** The warning of a broken client opens with the first text only. *)
Lemma warning_names_its_stage_witness :
  String.prefix clientFailurePrefix "Failed create service client: connection refused" = true
  /\ exists err,
       NewInfoServiceClient
         (snd (client_NewAPIClient (process local (broken refused) []) tt)) = Err err.
Proof.
  split; [reflexivity |].
  apply (warning_names_its_stage (process local (broken refused) [])
           (withServer "localhost:2746") (root (process local (broken refused) []))
           "Failed create service client: connection refused");
    [left | ]; reflexivity.
Defined.

(** CLI [v3.4.0] against server [v3.4.0-rc1]: a warning. *)
Lemma longer_tag_is_a_mismatch_witness :
  exists msg,
    warnings (trace (printVersionMismatchWarning (process local (serving candidate) [])
      (withServer "localhost:2746") (root (process local (serving candidate) [])))) = [msg]
    /\ String.prefix mismatchPrefix msg = true.
Proof.
  apply (longer_tag_is_a_mismatch (process local (serving candidate) [])
           (withServer "localhost:2746") (root (process local (serving candidate) []))
           "localhost:2746" tt (serving candidate)
           {| GetVersion := fun _ _ => Ok candidate |} candidate "-rc1");
    [reflexivity | reflexivity | reflexivity | reflexivity | discriminate
    | left; reflexivity].
Defined.

(** ** Runs that a call may end *)

Section ProcessRuns.

Context {context_Context OtherFields : Type}.

Implicit Types (environ : gmap string string) (command cmd : Command context_Context)
  (factory : context_Context -> option (context_Context * Client context_Context OtherFields))
  (localVersion : Version OtherFields) (vars : Flags) (args : list string).

(** When [client.NewAPIClient] returns, the run in the process is the run
    of [printVersionMismatchWarning], and it returns. *)
Lemma inProcess_agrees (ext : Collaborators context_Context OtherFields)
    factory environ command :
  factory (Context command) = Some (client_NewAPIClient ext (Context command)) ->
  printVersionMismatchWarning_inProcess factory (argo_GetVersion ext) environ command =
    (trace (printVersionMismatchWarning ext environ command), Returned tt).
Proof.
  intros Hf.
  unfold printVersionMismatchWarning_inProcess, printVersionMismatchWarning,
    NewAPIClient_orExit, NewAPIClient, os_LookupEnv.
  destruct (environ !! "ARGO_SERVER") as [v|]; [| reflexivity].
  rewrite Hf. cbn.
  destruct (client_NewAPIClient ext (Context command)) as [ctx apiClient]. cbn.
  destruct (NewInfoServiceClient apiClient) as [serviceClient|err]; [| reflexivity].
  cbn.
  destruct (GetVersion serviceClient ctx mkGetVersionRequest)
    as [serverVersion|err]; [| reflexivity].
  cbn. by destruct (String.eqb _ _).
Qed.

(** The same for the hook. *)
Lemma hook_inProcess_agrees (ext : Collaborators context_Context OtherFields)
    factory environ command vars cmd args :
  factory (Context command) = Some (client_NewAPIClient ext (Context command)) ->
  PersistentPreRun_inProcess factory (argo_GetVersion ext) environ command vars cmd args =
    (trace (PersistentPreRun ext environ command vars cmd args),
     Returned (value (PersistentPreRun ext environ command vars cmd args))).
Proof.
  intros Hf. unfold PersistentPreRun_inProcess.
  rewrite (inProcess_agrees ext _ _ _ Hf), hook_unfold. cbn.
  by rewrite app_nil_r.
Qed.



End ProcessRuns.

(** C6.  The check does not return in every run.  With [ARGO_SERVER] set
    and a [client.NewAPIClient] that cannot build its client, the process
    ends inside that call: the check logs no warning and hands nothing back
    to the hook, and the hook, run here for [argo version], ends with it
    after configuring the loggers. *)
Theorem check_may_end_the_process :
  printVersionMismatchWarning_inProcess noClient local (withServer "localhost:2746")
      (root (process local (serving local) [])) =
    ([EvNewAPIClient tt], Exited)
  /\ PersistentPreRun_inProcess noClient local (withServer "localhost:2746")
       (root (process local (serving local) [])) defaultFlags (leaf "version") [] =
    ([EvSetLogLevel "info"; EvSetGLogLevel 0; EvDebug "version" local "CLI version";
      EvNewAPIClient tt], Exited).
Proof. split; reflexivity. Qed.
